(** * Freelancer Invoice Tracker: the selection / report state machine

    A shallow embedding of [src/app/page.tsx].  The React component
    [FreelancerInvoiceTracker] keeps five [useState] cells; its three
    handlers and the inline [onClick] of the report panel are the only
    writers.  The handlers are embedded as actions over the record of the
    five cells, written in a small monad that has the completions a
    JavaScript block can have (normal, [return], [throw]), so that the
    guards with early [return] and the [try]/[catch]/[finally] of
    [handleGenerateReport] read as they do in the source.

    The rendering function is embedded as far as it decides which
    controls exist and are enabled; the JS runtime is embedded as the list
    of [fetch] calls that have been issued and not yet settled.

    A handler reads the cells as they were at the render that created it.
    React renders again after each click before the next event is
    delivered, so a click handler reads the current cells: a handler is a
    function of the current state.  The part of [handleGenerateReport]
    that runs after its [await]s reads no cell at all, it only calls
    setters with constants and with the decoded response. *)

From Stdlib Require Import String Ascii List Bool Arith ZArith Lia.
Import ListNotations.
Local Open Scope string_scope.
Local Open Scope list_scope.
Local Open Scope nat_scope.

(** ** Data *)

(** [interface Feature { symbol: string; name: string }] *)
Record Feature : Type := mkFeature { symbol : string; name : string }.

(** The stage cell: ['input' | 'loading' | 'report']. *)
Inductive Stage : Type := StageInput | StageLoading | StageReport.

Definition Stage_eqb (a b : Stage) : bool :=
  match a, b with
  | StageInput, StageInput | StageLoading, StageLoading
  | StageReport, StageReport => true
  | _, _ => false
  end.

(** What [await aiResponse.json()] can produce: any JSON value.  The
    component never inspects it, so numbers are kept integral. *)
#[warnings="-register-all"]
Inductive Json : Type :=
| JNull
| JBool (b : bool)
| JNumber (n : Z)
| JString (s : string)
| JArray (items : list Json)
| JObject (fields : list (string * Json)).

(** The five [useState] cells of the component.  [error] is
    [string | null]; [report] is declared by its initial value [''] but
    receives the untyped result of [json()]. *)
Record Component : Type := mkComponent {
  selectedFeatures : list Feature;
  error : option string;
  isLoading : bool;
  report : Json;
  stage : Stage
}.

(** The initial values passed to [useState]. *)
Definition initial : Component :=
  {| selectedFeatures := []; error := None; isLoading := false;
     report := JString ""; stage := StageInput |}.

(** ** The catalog *)

Definition FEATURES_literal : list Feature :=
  [ mkFeature "InvoiceGen" "Generate Professional Invoices";
    mkFeature "TrackPayments" "Track Payment Status";
    mkFeature "AutoReminders" "Automated Payment Reminders";
    mkFeature "Dashboard" "Income & Overdue Summary";
    mkFeature "Integrations" "Payment Platform Integrations" ].

(** [.sort((a, b) => a.name.localeCompare(b.name))].  The five names start
    with five different capital letters, on which [localeCompare] and the
    code-unit order [String.leb] agree. *)
Fixpoint insert_by_name (f : Feature) (l : list Feature) : list Feature :=
  match l with
  | [] => [f]
  | g :: l' => if String.leb (name f) (name g) then f :: l
               else g :: insert_by_name f l'
  end.

Definition sort_by_name (l : list Feature) : list Feature :=
  fold_right insert_by_name [] l.

Definition FEATURES : list Feature := sort_by_name FEATURES_literal.

(** ** Handler actions *)

(** The values a [throw] carries in this file. *)
Inductive JsError : Type :=
| TypeError_fetch
| SyntaxError_json
| Error (message : string).

(** How a block of statements completes. *)
Inductive Completion (A : Type) : Type :=
| Normal (a : A)
| Returned
| Thrown (e : JsError).
Arguments Normal {A} a.
Arguments Returned {A}.
Arguments Thrown {A} e.

(** An action reads and writes the cells and completes. *)
Definition Action (A : Type) : Type := Component -> Completion A * Component.

Definition pure {A} (a : A) : Action A := fun c => (Normal a, c).

Definition bind {A B} (m : Action A) (k : A -> Action B) : Action B :=
  fun c =>
    match m c with
    | (Normal a, c') => k a c'
    | (Returned, c') => (Returned, c')
    | (Thrown e, c') => (Thrown e, c')
    end.

Declare Scope action_scope.
Delimit Scope action_scope with action.
Notation "x <- m ;; k" := (bind m (fun x => k))
  (at level 61, m at next level, right associativity) : action_scope.
Notation "m ;; k" := (bind m (fun _ => k))
  (at level 61, right associativity) : action_scope.
Local Open Scope action_scope.

(** [return;] *)
Definition return_ {A} : Action A := fun c => (Returned, c).

(** [throw e;] *)
Definition throw {A} (e : JsError) : Action A := fun c => (Thrown e, c).

(** [if (cond) { body }] with no [else]. *)
Definition when (cond : bool) (body : Action unit) : Action unit :=
  if cond then body else pure tt.

(** Reading a cell. *)
Definition read {A} (cell : Component -> A) : Action A :=
  fun c => (Normal (cell c), c).

(** [try { body } catch { handler } finally { fin }]: a throw of [body]
    is replaced by the completion of [handler]; [fin] runs whatever the
    completion was and, completing normally, leaves it in place. *)
Definition try_catch_finally (body handler fin : Action unit) : Action unit :=
  fun c =>
    let r := match body c with
             | (Thrown _, c') => handler c'
             | r => r
             end in
    match fin (snd r) with
    | (Normal _, c'') => (fst r, c'')
    | abrupt => abrupt
    end.

(** The state a handler leaves behind. *)
Definition run_handler {A} (h : Action A) (c : Component) : Component :=
  snd (h c).

(** The setters returned by [useState]. *)
Definition setSelectedFeatures (v : list Feature) : Action unit :=
  fun c => (Normal tt,
            {| selectedFeatures := v; error := error c;
               isLoading := isLoading c; report := report c;
               stage := stage c |}).

Definition setError (v : string) : Action unit :=
  fun c => (Normal tt,
            {| selectedFeatures := selectedFeatures c; error := Some v;
               isLoading := isLoading c; report := report c;
               stage := stage c |}).

Definition setIsLoading (v : bool) : Action unit :=
  fun c => (Normal tt,
            {| selectedFeatures := selectedFeatures c; error := error c;
               isLoading := v; report := report c; stage := stage c |}).

Definition setReport (v : Json) : Action unit :=
  fun c => (Normal tt,
            {| selectedFeatures := selectedFeatures c; error := error c;
               isLoading := isLoading c; report := v; stage := stage c |}).

Definition setStage (v : Stage) : Action unit :=
  fun c => (Normal tt,
            {| selectedFeatures := selectedFeatures c; error := error c;
               isLoading := isLoading c; report := report c; stage := v |}).

(** ** Selection handlers *)

(** [l.some(f => f.symbol === s)] *)
Definition some_symbol (s : string) (l : list Feature) : bool :=
  existsb (fun f => (symbol f =? s)%string) l.

(** [handleFeatureSelect], lines 24-35. *)
Definition handleFeatureSelect (feature : Feature) : Action unit :=
  sel <- read selectedFeatures ;;
  when (3 <=? length sel)
    (setError "Maximum 3 features allowed" ;; return_) ;;
  when (some_symbol (symbol feature) sel)
    (setError "Feature already selected" ;; return_) ;;
  setSelectedFeatures (sel ++ [feature]) ;;
  setError "".

(** [handleRemoveFeature], lines 37-40. *)
Definition handleRemoveFeature (sym : string) : Action unit :=
  sel <- read selectedFeatures ;;
  setSelectedFeatures (filter (fun f => negb (symbol f =? sym)%string) sel) ;;
  setError "".

(** The two operations of the selection as state transformers. *)
Definition select (feature : Feature) (c : Component) : Component :=
  run_handler (handleFeatureSelect feature) c.

Definition remove (sym : string) (c : Component) : Component :=
  run_handler (handleRemoveFeature sym) c.

(** ** Report generation *)

(** The argument of the one [fetch] call, lines 55-61.  [body] is the
    value handed to [JSON.stringify]. *)
Record Request : Type := mkRequest {
  url : string;
  method : string;
  content_type : string;
  body : Json
}.

(** What the awaited [fetch] and, after it, the awaited [json()] deliver.
    [json_body = None] stands for a body that is not JSON, on which
    [json()] rejects. *)
Record Response : Type := mkResponse {
  status : Z;
  json_body : option Json
}.

Inductive FetchOutcome : Type :=
| NetworkError
| Responded (r : Response).

(** [Response.ok]: the status is in the range 200-299. *)
Definition ok (r : Response) : bool :=
  ((200 <=? status r) && (status r <=? 299))%Z.

Definition LF : string := String (ascii_of_nat 10) EmptyString.

(** Line 52: [selectedFeatures.map(f => `${f.name} (${f.symbol})`).join(', ')] *)
Definition featuresList (sel : list Feature) : string :=
  String.concat ", " (map (fun f => (name f ++ " (" ++ symbol f ++ ")")%string) sel).

(** Line 53. *)
Definition prompt (sel : list Feature) : string :=
  ("You are a SaaS strategist. Analyze the following features for a Freelancer Invoice Tracker: "
   ++ featuresList sel ++ "." ++ LF ++ LF
   ++ "Provide a comprehensive report including:" ++ LF
   ++ "1. Benefits of these features with practical use cases." ++ LF
   ++ "2. Actionable strategies for implementation and user engagement." ++ LF
   ++ "3. Challenges freelancers face and how these features resolve them." ++ LF
   ++ "4. Suggestions for scaling the tool effectively.")%string.

Definition report_request (sel : list Feature) : Request :=
  {| url := "https://gemini-api-worker.waibhav204.workers.dev/";
     method := "POST";
     content_type := "application/json";
     body := JString (prompt sel) |}.

(** [handleGenerateReport] is an [async] function with the [fetch] call as
    its first suspension point.  Lines 43-61 run inside the click; their
    value is the request handed to [fetch], and a [return] of the guard
    hands over none. *)
Definition handleGenerateReport_click : Action Request :=
  sel <- read selectedFeatures ;;
  when (length sel =? 0)
    (setError "Please select at least one feature" ;; return_) ;;
  setStage StageLoading ;;
  setIsLoading true ;;
  pure (report_request sel).

(** [await fetch(...)]: a network failure rejects. *)
Definition await_fetch (o : FetchOutcome) : Action Response :=
  match o with
  | NetworkError => throw TypeError_fetch
  | Responded r => pure r
  end.

(** [await aiResponse.json()]: a body that does not parse rejects. *)
Definition await_json (r : Response) : Action Json :=
  match json_body r with
  | None => throw SyntaxError_json
  | Some v => pure v
  end.

(** Lines 51-75 from the point where the [fetch] settles.  The code runs
    no setter and reads no cell between the two [await]s, so the two
    suspensions are taken in one step. *)
Definition handleGenerateReport_resume (o : FetchOutcome) : Action unit :=
  try_catch_finally
    (aiResponse <- await_fetch o ;;
     when (negb (ok aiResponse))
       (throw (Error "Failed to generate report")) ;;
     reportData <- await_json aiResponse ;;
     setReport reportData ;;
     setStage StageReport)
    (setError "Failed to generate report. Please try again." ;;
     setStage StageInput)
    (setIsLoading false).

(** Line 163: [onClick={() => setStage('input')}]. *)
Definition handleTryAnother : Action unit := setStage StageInput.

(** ** The page: component plus the requests of the runtime *)

(** [pending] are the calls of [handleGenerateReport] suspended at their
    [fetch], oldest first; [sent] counts the [fetch] calls made so far. *)
Record Page : Type := mkPage {
  component : Component;
  pending : list Request;
  sent : nat
}.

Definition start : Page :=
  {| component := initial; pending := []; sent := 0 |}.

(** The "generate" action: the click part of [handleGenerateReport]; a
    request is issued exactly when that part reaches the [fetch]. *)
Definition generate (p : Page) : Page :=
  match handleGenerateReport_click (component p) with
  | (Normal req, c') =>
      {| component := c'; pending := pending p ++ [req]; sent := S (sent p) |}
  | (_, c') =>
      {| component := c'; pending := pending p; sent := sent p |}
  end.

Fixpoint drop_nth {A} (i : nat) (l : list A) : list A :=
  match l, i with
  | [], _ => []
  | _ :: l', O => l'
  | a :: l', S i' => a :: drop_nth i' l'
  end.

(** The [i]-th pending request settles with outcome [o] and its
    suspended call runs to its end. *)
Definition settle (i : nat) (o : FetchOutcome) (p : Page) : Page :=
  match nth_error (pending p) i with
  | None => p
  | Some _ =>
      {| component := run_handler (handleGenerateReport_resume o) (component p);
         pending := drop_nth i (pending p);
         sent := sent p |}
  end.

(** A handler that makes no request. *)
Definition on_component (f : Component -> Component) (p : Page) : Page :=
  {| component := f (component p); pending := pending p; sent := sent p |}.

Inductive Event : Type :=
| ClickFeature (f : Feature)
| ClickRemove (sym : string)
| ClickGenerate
| ClickTryAnother
| Settle (i : nat) (o : FetchOutcome).

Definition step (p : Page) (e : Event) : Page :=
  match e with
  | ClickFeature f => on_component (select f) p
  | ClickRemove sym => on_component (remove sym) p
  | ClickGenerate => generate p
  | ClickTryAnother => on_component (run_handler handleTryAnother) p
  | Settle i o => settle i o p
  end.

(** Line 161, [<p>{report}</p>], is evaluated in stage [report] only.
    React renders a string or a number as text, [null] and booleans as
    nothing, and an array child by child; a plain object is not a valid
    child and makes the render throw. *)
Fixpoint renderable (v : Json) : bool :=
  match v with
  | JNull | JBool _ | JNumber _ | JString _ => true
  | JArray items => forallb renderable items
  | JObject _ => false
  end.

(** The render of lines 78-173 returns without throwing. *)
Definition renders (c : Component) : bool :=
  negb (Stage_eqb (stage c) StageReport) || renderable (report c).

Definition feature_eqb (f g : Feature) : bool :=
  ((symbol f =? symbol g) && (name f =? name g))%string.

(** What the JSX of lines 78-173 holds for an event, once rendered:
    - the tiles exist in stage [input] only (line 91), one per catalog
      entry, disabled once its symbol is selected (line 97);
    - a chip with its remove button exists for every selected feature, in
      every stage (lines 111-128);
    - the "Generate Insights" button exists in every stage and is disabled
      on the empty selection only (lines 139-141);
    - "Try Another Selection" exists in stage [report] only (line 158);
    - a pending request can settle at any time. *)
Definition control_enabled (p : Page) (e : Event) : bool :=
  let c := component p in
  match e with
  | ClickFeature f =>
      Stage_eqb (stage c) StageInput
      && existsb (feature_eqb f) FEATURES
      && negb (some_symbol (symbol f) (selectedFeatures c))
  | ClickRemove sym => some_symbol sym (selectedFeatures c)
  | ClickGenerate => negb (length (selectedFeatures c) =? 0)
  | ClickTryAnother => Stage_eqb (stage c) StageReport
  | Settle i _ => i <? length (pending p)
  end.

(** The events that act on the page.  When the render throws, the
    component has no error boundary and React unmounts the whole tree:
    no control is left, and the setters that the continuation of a
    request settling later would call reach no mounted component.  Such a
    page takes no event any more. *)
Definition offered (p : Page) (e : Event) : bool :=
  renders (component p) && control_enabled p e.

(** A session: every event must be offered by the page it acts on. *)
Fixpoint session (events : list Event) (p : Page) : option Page :=
  match events with
  | [] => Some p
  | e :: rest => if offered p e then session rest (step p e) else None
  end.

(** The error banner of lines 133-137 renders when [error] is truthy. *)
Definition banner (c : Component) : option string :=
  match error c with
  | Some "" | None => None
  | Some s => Some s
  end.

(** ** Sequences of selection operations *)

Inductive SelectionOp : Type :=
| Select (f : Feature)
| Remove (sym : string).

Definition apply_op (c : Component) (op : SelectionOp) : Component :=
  match op with
  | Select f => select f c
  | Remove sym => remove sym c
  end.

Definition apply_ops (ops : list SelectionOp) (c : Component) : Component :=
  fold_left apply_op ops c.

(** Every state on the way, the first one included. *)
Fixpoint states_along (ops : list SelectionOp) (c : Component) : list Component :=
  c :: match ops with
       | [] => []
       | op :: rest => states_along rest (apply_op c op)
       end.

(** The invariant of the data model. *)
Definition selection_ok (sel : list Feature) : Prop :=
  length sel <= 3 /\ NoDup (map symbol sel).

(** [select] succeeds: the feature is appended and the message cleared. *)
Definition select_succeeds (f : Feature) (c : Component) : Prop :=
  selectedFeatures (select f c) = selectedFeatures c ++ [f]
  /\ error (select f c) = Some "".

(** The cells other than [selectedFeatures] and [error] are the same. *)
Definition same_rest (c c' : Component) : Prop :=
  isLoading c' = isLoading c /\ report c' = report c /\ stage c' = stage c.

(** The outcomes the [try] block turns into a throw. *)
Definition failed (o : FetchOutcome) : bool :=
  match o with
  | NetworkError => true
  | Responded r => negb (ok r) || match json_body r with
                                  | None => true
                                  | Some _ => false
                                  end
  end.

(** ** Scenario data *)

Definition InvoiceGen : Feature :=
  mkFeature "InvoiceGen" "Generate Professional Invoices".
Definition TrackPayments : Feature :=
  mkFeature "TrackPayments" "Track Payment Status".
Definition AutoReminders : Feature :=
  mkFeature "AutoReminders" "Automated Payment Reminders".
Definition Dashboard : Feature :=
  mkFeature "Dashboard" "Income & Overdue Summary".

(** The component after the first three catalog literals were selected. *)
Definition three_selected : Component :=
  apply_ops [Select InvoiceGen; Select TrackPayments; Select AutoReminders]
            initial.

(** The page with [InvoiceGen] selected, and the three kinds of failure:
    HTTP 500 with a JSON body, no response at all, and HTTP 200 with a
    body that does not parse. *)
Definition one_selected : Page := on_component (select InvoiceGen) start.

Definition failures : list FetchOutcome :=
  [ Responded (mkResponse 500 (Some (JString "oops")));
    NetworkError;
    Responded (mkResponse 200 None) ].

(** The page showing the report for [InvoiceGen]. *)
Definition report_shown : Page :=
  settle 0 (Responded (mkResponse 200 (Some (JString "Report text"))))
         (generate one_selected).

(** ** Reachable pages *)

(** The messages a session can leave in [error]: the initial [null], the
    cleared [''], and the two messages whose guard a click can reach. *)
Definition session_message (e : option string) : Prop :=
  e = None \/ e = Some ""
  \/ e = Some "Maximum 3 features allowed"
  \/ e = Some "Failed to generate report. Please try again.".

(** A request built by line 52-61 from a selection that passed the guard
    of line 43 and respects the selection invariant. *)
Definition well_formed_request (r : Request) : Prop :=
  exists sel, r = report_request sel /\ sel <> []
              /\ selection_ok sel /\ Forall (fun f => In f FEATURES) sel.

(** What holds of every page a session reaches from [start]. *)
Record page_ok (p : Page) : Prop := mkPageOk {
  ok_selection : selection_ok (selectedFeatures (component p));
  ok_catalog : Forall (fun f => In f FEATURES) (selectedFeatures (component p));
  ok_message : session_message (error (component p));
  ok_flag : isLoading (component p) = true <-> stage (component p) = StageLoading;
  ok_spinner : stage (component p) = StageLoading -> pending p <> [];
  ok_requests : Forall well_formed_request (pending p);
  ok_sent : length (pending p) <= sent p
}.

(** Two pages that differ in the [isLoading] cell at most. *)
Definition same_but_isLoading (p q : Page) : Prop :=
  selectedFeatures (component p) = selectedFeatures (component q)
  /\ error (component p) = error (component q)
  /\ report (component p) = report (component q)
  /\ stage (component p) = stage (component q)
  /\ pending p = pending q
  /\ sent p = sent q.

(** The text of one feature in the prompt: [`${f.name} (${f.symbol})`]. *)
Definition feature_item (f : Feature) : string :=
  (name f ++ " (" ++ symbol f ++ ")")%string.

(** [x] occurs in [s] as a contiguous piece. *)
Definition occurs_in (x s : string) : Prop :=
  exists before after, s = (before ++ x ++ after)%string.

(** ** Equations of the handlers *)

Ltac run_action :=
  unfold select, remove, run_handler, handleFeatureSelect,
    handleRemoveFeature, handleGenerateReport_click,
    handleGenerateReport_resume, handleTryAnother, try_catch_finally,
    await_fetch, await_json, bind, read, when, pure, return_, throw,
    setSelectedFeatures, setError, setIsLoading, setReport, setStage.

(** Projections of a page written out, nothing else unfolded. *)
Ltac cells :=
  unfold run_handler, setError;
  cbn [component pending sent selectedFeatures error isLoading report stage
       snd fst].

Lemma some_symbol_In (s : string) (l : list Feature) :
  some_symbol s l = true <-> In s (map symbol l).
Proof.
  unfold some_symbol. rewrite existsb_exists, in_map_iff.
  split; intros [f [H1 H2]].
  - exists f. apply String.eqb_eq in H2. auto.
  - exists f. rewrite H1, String.eqb_refl. auto.
Qed.

Lemma some_symbol_not_In (s : string) (l : list Feature) :
  some_symbol s l = false <-> ~ In s (map symbol l).
Proof.
  rewrite <- some_symbol_In. destruct (some_symbol s l); split; congruence.
Qed.

Lemma select_full (f : Feature) (c : Component) :
  3 <= length (selectedFeatures c) ->
  select f c = run_handler (setError "Maximum 3 features allowed") c.
Proof.
  intros H. apply Nat.leb_le in H. run_action. rewrite H. reflexivity.
Qed.

Lemma select_present (f : Feature) (c : Component) :
  length (selectedFeatures c) < 3 ->
  some_symbol (symbol f) (selectedFeatures c) = true ->
  select f c = run_handler (setError "Feature already selected") c.
Proof.
  intros H1 H2. apply Nat.leb_gt in H1. run_action.
  rewrite H1. cbn. rewrite H2. reflexivity.
Qed.

Lemma select_fresh (f : Feature) (c : Component) :
  length (selectedFeatures c) < 3 ->
  some_symbol (symbol f) (selectedFeatures c) = false ->
  select f c =
  {| selectedFeatures := selectedFeatures c ++ [f]; error := Some "";
     isLoading := isLoading c; report := report c; stage := stage c |}.
Proof.
  intros H1 H2. apply Nat.leb_gt in H1. run_action.
  rewrite H1. cbn. rewrite H2. reflexivity.
Qed.

Lemma remove_eq (sym : string) (c : Component) :
  remove sym c =
  {| selectedFeatures :=
       filter (fun f => negb (symbol f =? sym)%string) (selectedFeatures c);
     error := Some "";
     isLoading := isLoading c; report := report c; stage := stage c |}.
Proof. reflexivity. Qed.

(** The three ways [select] can go, by the two guards. *)
Lemma select_cases (f : Feature) (c : Component) :
  (3 <= length (selectedFeatures c)
   /\ select f c = run_handler (setError "Maximum 3 features allowed") c)
  \/ (length (selectedFeatures c) < 3
      /\ In (symbol f) (map symbol (selectedFeatures c))
      /\ select f c = run_handler (setError "Feature already selected") c)
  \/ (length (selectedFeatures c) < 3
      /\ ~ In (symbol f) (map symbol (selectedFeatures c))
      /\ select f c =
         {| selectedFeatures := selectedFeatures c ++ [f]; error := Some "";
            isLoading := isLoading c; report := report c;
            stage := stage c |}).
Proof.
  destruct (le_lt_dec 3 (length (selectedFeatures c))) as [H | H].
  - left. auto using select_full.
  - right.
    destruct (some_symbol (symbol f) (selectedFeatures c)) eqn:E.
    + left. rewrite <- some_symbol_In. auto using select_present.
    + right. rewrite <- some_symbol_not_In. auto using select_fresh.
Qed.

(** ** The selection invariant *)

Lemma In_symbol_filter (p : Feature -> bool) (s : string) (l : list Feature) :
  In s (map symbol (filter p l)) -> In s (map symbol l).
Proof.
  rewrite !in_map_iff. intros [f [H1 H2]].
  apply filter_In in H2. exists f. tauto.
Qed.

Lemma NoDup_symbol_filter (p : Feature -> bool) (l : list Feature) :
  NoDup (map symbol l) -> NoDup (map symbol (filter p l)).
Proof.
  induction l as [| g l IH]; cbn; intros H.
  - constructor.
  - inversion H as [| x xs Hnotin Hnodup]; subst.
    destruct (p g); cbn.
    + constructor; auto. intros Hin. apply Hnotin.
      eapply In_symbol_filter; eauto.
    + auto.
Qed.

Lemma NoDup_symbol_snoc (f : Feature) (l : list Feature) :
  NoDup (map symbol l) -> ~ In (symbol f) (map symbol l) ->
  NoDup (map symbol (l ++ [f])).
Proof.
  intros Hnd Hnotin. rewrite map_app. cbn.
  induction (map symbol l) as [| s ss IH]; cbn.
  - constructor; [intros [] | constructor].
  - inversion Hnd; subst. constructor.
    + rewrite in_app_iff. cbn. intros [Hin | [Heq | []]]; [tauto |].
      apply Hnotin. left. auto.
    + apply IH; auto. intros Hin. apply Hnotin. right. auto.
Qed.

Lemma select_keeps_invariant (f : Feature) (c : Component) :
  selection_ok (selectedFeatures c) ->
  selection_ok (selectedFeatures (select f c)).
Proof.
  intros [Hlen Hnd].
  destruct (select_cases f c) as [[_ E] | [[_ [_ E]] | [Hlt [Hnotin E]]]];
    rewrite E; cbn; split; auto.
  - rewrite length_app. cbn. lia.
  - apply NoDup_symbol_snoc; auto.
Qed.

Lemma remove_keeps_invariant (sym : string) (c : Component) :
  selection_ok (selectedFeatures c) ->
  selection_ok (selectedFeatures (remove sym c)).
Proof.
  intros [Hlen Hnd]. rewrite remove_eq. cbn. split.
  - pose proof (filter_length_le
      (fun f => negb (symbol f =? sym)%string) (selectedFeatures c)). lia.
  - apply NoDup_symbol_filter. assumption.
Qed.

Lemma apply_op_keeps_invariant (op : SelectionOp) (c : Component) :
  selection_ok (selectedFeatures c) ->
  selection_ok (selectedFeatures (apply_op c op)).
Proof.
  destruct op as [f | sym];
    [apply select_keeps_invariant | apply remove_keeps_invariant].
Qed.

Lemma states_along_invariant (ops : list SelectionOp) :
  forall c, selection_ok (selectedFeatures c) ->
  Forall (fun c' => selection_ok (selectedFeatures c')) (states_along ops c).
Proof.
  induction ops as [| op ops IH]; intros c H; cbn.
  - constructor; auto.
  - constructor; auto. apply IH. apply apply_op_keeps_invariant. assumption.
Qed.

Lemma apply_ops_last (ops : list SelectionOp) :
  forall c, In (apply_ops ops c) (states_along ops c).
Proof.
  induction ops as [| op ops IH]; intros c; cbn.
  - auto.
  - right. apply IH.
Qed.

(** C1.  Along every sequence of [select] and [remove] operations that
    starts from the empty selection, every state met, the final one
    included, has at most 3 selected features and no two of them with
    the same symbol. *)
Theorem selection_bounded_and_duplicate_free (ops : list SelectionOp) :
  Forall (fun c => length (selectedFeatures c) <= 3
                   /\ NoDup (map symbol (selectedFeatures c)))
         (states_along ops initial)
  /\ length (selectedFeatures (apply_ops ops initial)) <= 3
  /\ NoDup (map symbol (selectedFeatures (apply_ops ops initial))).
Proof.
  assert (H0 : selection_ok (selectedFeatures initial)).
  { split; cbn; [lia | constructor]. }
  pose proof (states_along_invariant ops initial H0) as HF.
  split; [exact HF |].
  rewrite Forall_forall in HF.
  exact (HF _ (apply_ops_last ops initial)).
Qed.

(** ** Scenario checks *)

Example catalog_order :
  map symbol FEATURES =
  ["AutoReminders"; "InvoiceGen"; "Dashboard"; "Integrations"; "TrackPayments"].
Proof. reflexivity. Qed.

Example three_selected_cells :
  map symbol (selectedFeatures three_selected)
  = ["InvoiceGen"; "TrackPayments"; "AutoReminders"]
  /\ error three_selected = Some "" /\ stage three_selected = StageInput.
Proof. repeat split. Qed.

(** ** [select] *)

(** C2.  In every state [select] goes one of three ways.  With 3 (or
    more) entries selected it leaves the selection as it is and sets the
    message "Maximum 3 features allowed".  Below that, with the symbol of
    the feature already present, it leaves the selection as it is and
    sets "Feature already selected".  Otherwise it appends the feature at
    the end and clears the message.  No other cell changes. *)
Theorem select_behaviour (f : Feature) (c : Component) :
  (3 <= length (selectedFeatures c) ->
     selectedFeatures (select f c) = selectedFeatures c
     /\ error (select f c) = Some "Maximum 3 features allowed"
     /\ same_rest c (select f c))
  /\ (length (selectedFeatures c) < 3 ->
      In (symbol f) (map symbol (selectedFeatures c)) ->
        selectedFeatures (select f c) = selectedFeatures c
        /\ error (select f c) = Some "Feature already selected"
        /\ same_rest c (select f c))
  /\ (length (selectedFeatures c) < 3 ->
      ~ In (symbol f) (map symbol (selectedFeatures c)) ->
        selectedFeatures (select f c) = selectedFeatures c ++ [f]
        /\ error (select f c) = Some ""
        /\ same_rest c (select f c)).
Proof.
  unfold same_rest. repeat split.
  all: try (rewrite select_full by assumption; reflexivity).
  all: try (rewrite select_present
              by (try apply some_symbol_In; assumption); reflexivity).
  all: rewrite select_fresh
         by (try apply some_symbol_not_In; assumption); reflexivity.
Qed.

Lemma select_behaviour_witness :
  error (select Dashboard three_selected) = Some "Maximum 3 features allowed"
  /\ error (select InvoiceGen (select InvoiceGen initial))
     = Some "Feature already selected"
  /\ selectedFeatures (select InvoiceGen initial) = [InvoiceGen].
Proof.
  split; [| split].
  - destruct (select_behaviour Dashboard three_selected) as [H _].
    apply H. cbn. lia.
  - destruct (select_behaviour InvoiceGen (select InvoiceGen initial))
      as [_ [H _]].
    apply H; cbn; [lia | auto].
  - destruct (select_behaviour InvoiceGen initial) as [_ [_ H]].
    apply H; cbn; [lia | tauto].
Defined.

(** C10.  With 3 entries selected, [select] of a feature whose symbol is
    among them sets "Maximum 3 features allowed" and not "Feature already
    selected": the length guard comes first. *)
Theorem limit_before_duplicate (f : Feature) (c : Component) :
  length (selectedFeatures c) = 3 ->
  In (symbol f) (map symbol (selectedFeatures c)) ->
  error (select f c) = Some "Maximum 3 features allowed"
  /\ error (select f c) <> Some "Feature already selected"
  /\ selectedFeatures (select f c) = selectedFeatures c.
Proof.
  intros Hlen _. rewrite select_full by lia. cbn.
  repeat split. discriminate.
Qed.

Lemma limit_before_duplicate_witness :
  error (select TrackPayments three_selected)
  = Some "Maximum 3 features allowed"
  /\ error (select TrackPayments three_selected)
     <> Some "Feature already selected"
  /\ selectedFeatures (select TrackPayments three_selected)
     = selectedFeatures three_selected.
Proof.
  apply (limit_before_duplicate TrackPayments three_selected).
  - reflexivity.
  - cbn. auto.
Defined.

(** ** [remove] followed by [select] *)

Lemma select_succeeds_iff (f : Feature) (c : Component) :
  select_succeeds f c <->
  length (selectedFeatures c) < 3
  /\ ~ In (symbol f) (map symbol (selectedFeatures c)).
Proof.
  unfold select_succeeds.
  destruct (select_cases f c) as [[H E] | [[H [Hin E]] | [H [Hnotin E]]]];
    rewrite E; cbn; split.
  - intros [Habs _]. apply (f_equal (@length Feature)) in Habs.
    rewrite length_app in Habs. cbn in Habs. lia.
  - lia.
  - intros [Habs _]. apply (f_equal (@length Feature)) in Habs.
    rewrite length_app in Habs. cbn in Habs. lia.
  - tauto.
  - auto.
  - auto.
Qed.

Lemma removed_symbol_absent (sym : string) (c : Component) :
  ~ In sym (map symbol (selectedFeatures (remove sym c))).
Proof.
  rewrite remove_eq. cbn. rewrite in_map_iff.
  intros [f [H1 H2]]. apply filter_In in H2. destruct H2 as [_ H2].
  rewrite H1, String.eqb_refl in H2. discriminate.
Qed.

Lemma remove_present_shrinks (sym : string) (l : list Feature) :
  In sym (map symbol l) ->
  length (filter (fun f => negb (symbol f =? sym)%string) l) < length l.
Proof.
  induction l as [| g l IH]; cbn; intros H.
  - contradiction.
  - destruct (String.eqb_spec (symbol g) sym) as [E | E]; cbn.
    + pose proof (filter_length_le
        (fun f => negb (symbol f =? sym)%string) l). lia.
    + destruct H as [H | H]; [contradiction |].
      specialize (IH H). lia.
Qed.

(** C8, as the code has it.  [remove] of a symbol followed by [select] of
    a feature with that symbol succeeds exactly when fewer than 3 entries
    are left after the removal; so it does whenever the selection had at
    most 3 entries and the symbol was among them. *)
Theorem remove_then_select (f : Feature) (c : Component) :
  (select_succeeds f (remove (symbol f) c) <->
   length (selectedFeatures (remove (symbol f) c)) < 3)
  /\ (length (selectedFeatures c) <= 3 ->
      In (symbol f) (map symbol (selectedFeatures c)) ->
      select_succeeds f (remove (symbol f) c)).
Proof.
  split.
  - rewrite select_succeeds_iff.
    pose proof (removed_symbol_absent (symbol f) c). tauto.
  - intros Hlen Hin. apply select_succeeds_iff. split.
    + rewrite remove_eq. cbn.
      pose proof (remove_present_shrinks _ _ Hin). lia.
    + apply removed_symbol_absent.
Qed.

Lemma remove_then_select_witness :
  select_succeeds TrackPayments (remove "TrackPayments" three_selected).
Proof.
  apply (remove_then_select TrackPayments three_selected).
  - cbn. lia.
  - cbn. auto.
Defined.

(** C8 as stated fails: with three features selected, removing the symbol
    of a fourth one changes nothing, and selecting that fourth feature is
    then refused by the length guard. *)
Lemma remove_absent_then_select_refused :
  selection_ok (selectedFeatures three_selected)
  /\ selectedFeatures (remove "Dashboard" three_selected)
     = selectedFeatures three_selected
  /\ ~ select_succeeds Dashboard (remove (symbol Dashboard) three_selected)
  /\ error (select Dashboard (remove (symbol Dashboard) three_selected))
     = Some "Maximum 3 features allowed".
Proof.
  split; [| split; [| split]].
  - split; cbn; [lia |].
    repeat constructor; cbn; intuition discriminate.
  - reflexivity.
  - intros [H _]. cbn in H. discriminate.
  - reflexivity.
Qed.

(** ** Report generation *)

Lemma generate_empty (p : Page) :
  selectedFeatures (component p) = [] ->
  generate p =
  on_component (run_handler (setError "Please select at least one feature")) p.
Proof.
  destruct p as [[sel err loading rep stg] pend n]. cbn. intros H.
  subst sel. reflexivity.
Qed.

Lemma generate_nonempty (p : Page) :
  selectedFeatures (component p) <> [] ->
  generate p =
  {| component :=
       {| selectedFeatures := selectedFeatures (component p);
          error := error (component p);
          isLoading := true;
          report := report (component p);
          stage := StageLoading |};
     pending := pending p ++ [report_request (selectedFeatures (component p))];
     sent := S (sent p) |}.
Proof.
  destruct p as [[sel err loading rep stg] pend n]. cbn. intros H.
  destruct sel as [| f sel]; [congruence | reflexivity].
Qed.

Lemma resume_failed (o : FetchOutcome) (c : Component) :
  failed o = true ->
  run_handler (handleGenerateReport_resume o) c =
  {| selectedFeatures := selectedFeatures c;
     error := Some "Failed to generate report. Please try again.";
     isLoading := false;
     report := report c;
     stage := StageInput |}.
Proof.
  destruct o as [| r]; cbn; intros H.
  - reflexivity.
  - run_action. unfold failed in H.
    destruct (ok r); cbn in *; [| reflexivity].
    destruct (json_body r); [discriminate | reflexivity].
Qed.

Lemma resume_succeeded (r : Response) (v : Json) (c : Component) :
  ok r = true -> json_body r = Some v ->
  run_handler (handleGenerateReport_resume (Responded r)) c =
  {| selectedFeatures := selectedFeatures c;
     error := error c;
     isLoading := false;
     report := v;
     stage := StageReport |}.
Proof.
  intros Hok Hbody. run_action. rewrite Hok, Hbody. reflexivity.
Qed.

Lemma nth_error_snoc {A} (l : list A) (a : A) :
  nth_error (l ++ [a]) (length l) = Some a.
Proof. induction l; cbn; auto. Qed.

Lemma drop_nth_snoc {A} (l : list A) (a : A) :
  drop_nth (length l) (l ++ [a]) = l.
Proof. induction l; cbn; congruence. Qed.

Lemma drop_nth_length {A} (i : nat) (l : list A) :
  i < length l -> S (length (drop_nth i l)) = length l.
Proof.
  revert i. induction l as [| a l IH]; intros [| i] H; cbn in *; try lia.
  rewrite IH; lia.
Qed.

(** Settling a pending request issues no request, whatever the outcome. *)
Lemma settle_sends_nothing (i : nat) (o : FetchOutcome) (p : Page) :
  sent (settle i o p) = sent p.
Proof. unfold settle. destruct (nth_error (pending p) i); reflexivity. Qed.

(** A failing outcome, whenever it arrives. *)
Lemma settle_failed (i : nat) (o : FetchOutcome) (p : Page) :
  i < length (pending p) -> failed o = true ->
  error (component (settle i o p))
  = Some "Failed to generate report. Please try again."
  /\ stage (component (settle i o p)) = StageInput
  /\ selectedFeatures (component (settle i o p))
     = selectedFeatures (component p)
  /\ S (length (pending (settle i o p))) = length (pending p).
Proof.
  intros Hi Ho. unfold settle.
  destruct (nth_error (pending p) i) eqn:E.
  - cbn [component pending]. rewrite resume_failed by assumption. cbn.
    auto using drop_nth_length.
  - apply nth_error_None in E. lia.
Qed.

(** C7.  With nothing selected the "generate" action stops at its guard:
    the stage is left where it was (so a page at [input] stays at
    [input]), the message becomes "Please select at least one feature",
    and no request is issued. *)
Theorem generate_guard (p : Page) :
  selectedFeatures (component p) = [] ->
  stage (component (generate p)) = stage (component p)
  /\ (stage (component p) = StageInput ->
      stage (component (generate p)) = StageInput)
  /\ error (component (generate p))
     = Some "Please select at least one feature"
  /\ selectedFeatures (component (generate p)) = []
  /\ pending (generate p) = pending p
  /\ sent (generate p) = sent p.
Proof.
  intros H. rewrite generate_empty by assumption. cbn.
  repeat split; auto.
Qed.

Lemma generate_guard_witness :
  stage (component (generate start)) = StageInput
  /\ error (component (generate start))
     = Some "Please select at least one feature"
  /\ sent (generate start) = 0.
Proof.
  destruct (generate_guard start) as [_ [H1 [H2 [_ [_ H3]]]]].
  - reflexivity.
  - split; [apply H1; reflexivity | split; [exact H2 | exact H3]].
Defined.

(** C4.  From any page with a non-empty selection, "generate" issues
    exactly one request; when that request fails (no response, a status
    outside 200-299, or a body that is not JSON) the message becomes
    "Failed to generate report. Please try again.", the stage is [input]
    again, the selection is what it was, and no further request has been
    issued or is pending. *)
Theorem generation_failure (p : Page) (o : FetchOutcome) :
  selectedFeatures (component p) <> [] ->
  failed o = true ->
  let p1 := generate p in
  let p2 := settle (length (pending p)) o p1 in
  sent p1 = S (sent p)
  /\ pending p1
     = pending p ++ [report_request (selectedFeatures (component p))]
  /\ stage (component p1) = StageLoading
  /\ error (component p2)
     = Some "Failed to generate report. Please try again."
  /\ stage (component p2) = StageInput
  /\ selectedFeatures (component p2) = selectedFeatures (component p)
  /\ sent p2 = S (sent p)
  /\ pending p2 = pending p.
Proof.
  intros Hsel Ho p1 p2. subst p2 p1.
  rewrite generate_nonempty by assumption.
  unfold settle. cbn [pending component sent].
  rewrite nth_error_snoc, drop_nth_snoc, resume_failed by assumption.
  cbn. repeat split.
Qed.

Lemma generation_failure_witness :
  Forall (fun o =>
            let p2 := settle 0 o (generate one_selected) in
            error (component p2)
            = Some "Failed to generate report. Please try again."
            /\ stage (component p2) = StageInput
            /\ selectedFeatures (component p2) = [InvoiceGen]
            /\ sent p2 = 1) failures.
Proof.
  assert (Hsel : selectedFeatures (component one_selected) <> [])
    by (cbn; discriminate).
  unfold failures.
  repeat (apply Forall_cons || apply Forall_nil).
  - destruct (generation_failure one_selected
                (Responded (mkResponse 500 (Some (JString "oops")))) Hsel)
      as [_ [_ [_ [H1 [H2 [H3 [H4 _]]]]]]]; [reflexivity |].
    repeat split; assumption.
  - destruct (generation_failure one_selected NetworkError Hsel)
      as [_ [_ [_ [H1 [H2 [H3 [H4 _]]]]]]]; [reflexivity |].
    repeat split; assumption.
  - destruct (generation_failure one_selected
                (Responded (mkResponse 200 None)) Hsel)
      as [_ [_ [_ [H1 [H2 [H3 [H4 _]]]]]]]; [reflexivity |].
    repeat split; assumption.
Defined.

(** C5.  From any page with a non-empty selection, when the request that
    "generate" issued is answered with a status in 200-299 and a body
    that parses as JSON, the parsed value, whatever it is, becomes the
    report and the stage becomes [report]. *)
Theorem generation_success (p : Page) (r : Response) (v : Json) :
  selectedFeatures (component p) <> [] ->
  ok r = true ->
  json_body r = Some v ->
  let p2 := settle (length (pending p)) (Responded r) (generate p) in
  report (component p2) = v
  /\ stage (component p2) = StageReport
  /\ selectedFeatures (component p2) = selectedFeatures (component p)
  /\ sent p2 = S (sent p)
  /\ pending p2 = pending p.
Proof.
  intros Hsel Hok Hbody p2. subst p2.
  rewrite generate_nonempty by assumption.
  unfold settle. cbn [pending component sent].
  rewrite nth_error_snoc, drop_nth_snoc.
  rewrite (resume_succeeded r v) by assumption.
  cbn. repeat split.
Qed.

(** A string body as in the scenario of the specification, and a body
    that is no string at all. *)
Lemma generation_success_witness :
  let shown v :=
    component (settle 0 (Responded (mkResponse 200 (Some v)))
                      (generate one_selected)) in
  (report (shown (JString "Report text")) = JString "Report text"
   /\ stage (shown (JString "Report text")) = StageReport)
  /\ (report (shown (JObject [("candidates", JArray [])]))
      = JObject [("candidates", JArray [])]
      /\ stage (shown (JObject [("candidates", JArray [])])) = StageReport).
Proof.
  intros shown. split.
  - destruct (generation_success one_selected
                (mkResponse 200 (Some (JString "Report text")))
                (JString "Report text")) as [H1 [H2 _]];
      [cbn; discriminate | reflexivity | reflexivity | ].
    split; [exact H1 | exact H2].
  - destruct (generation_success one_selected
                (mkResponse 200 (Some (JObject [("candidates", JArray [])])))
                (JObject [("candidates", JArray [])])) as [H1 [H2 _]];
      [cbn; discriminate | reflexivity | reflexivity | ].
    split; [exact H1 | exact H2].
Defined.

(** C9.  On a page in stage [report], "try another selection" moves the
    stage to [input] and leaves the selection, and every other cell, as
    it was.  The button that triggers it is there whenever the report
    panel could be rendered. *)
Theorem try_another_keeps_selection (p : Page) :
  stage (component p) = StageReport ->
  (renderable (report (component p)) = true ->
   offered p ClickTryAnother = true)
  /\ stage (component (step p ClickTryAnother)) = StageInput
  /\ selectedFeatures (component (step p ClickTryAnother))
     = selectedFeatures (component p)
  /\ error (component (step p ClickTryAnother)) = error (component p)
  /\ report (component (step p ClickTryAnother)) = report (component p)
  /\ pending (step p ClickTryAnother) = pending p
  /\ sent (step p ClickTryAnother) = sent p.
Proof.
  intros H. split.
  - intros Hr. unfold offered, renders. cbn [control_enabled].
    rewrite H, Hr. reflexivity.
  - cbn. repeat split.
Qed.

Lemma try_another_keeps_selection_witness :
  stage (component report_shown) = StageReport
  /\ offered report_shown ClickTryAnother = true
  /\ stage (component (step report_shown ClickTryAnother)) = StageInput
  /\ selectedFeatures (component (step report_shown ClickTryAnother))
     = [InvoiceGen].
Proof.
  split; [reflexivity |].
  destruct (try_another_keeps_selection report_shown) as [H0 [H1 [H2 _]]].
  - reflexivity.
  - split; [apply H0; reflexivity |].
    split; [exact H1 | rewrite H2; reflexivity].
Defined.

(** ** Where the message is cleared *)

Lemma select_success_clears_error (f : Feature) (c : Component) :
  select_succeeds f c -> error (select f c) = Some "" /\ banner (select f c) = None.
Proof.
  intros [_ H]. unfold banner. rewrite H. auto.
Qed.

Lemma remove_clears_error (sym : string) (c : Component) :
  error (remove sym c) = Some "" /\ banner (remove sym c) = None.
Proof. rewrite remove_eq. auto. Qed.

(** The success path of [handleGenerateReport] (lines 67-69 and 74) calls
    [setReport], [setStage] and [setIsLoading] only: the message is the
    one that was there before. *)
Lemma settle_succeeded_keeps_error
  (i : nat) (r : Response) (v : Json) (p : Page) :
  i < length (pending p) -> ok r = true -> json_body r = Some v ->
  stage (component (settle i (Responded r) p)) = StageReport
  /\ report (component (settle i (Responded r) p)) = v
  /\ error (component (settle i (Responded r) p)) = error (component p).
Proof.
  intros Hi Hok Hbody. unfold settle.
  destruct (nth_error (pending p) i) eqn:E.
  - cbn [component]. rewrite (resume_succeeded r v) by assumption. cbn. auto.
  - apply nth_error_None in E. lia.
Qed.

(** C6 at its failing input.  [InvoiceGen] is selected and the report
    requested; the request is answered with HTTP 500; the report is
    requested again and this time answered with HTTP 200 and the body
    ["Report text"].  Every step is one the page offers.  The generation
    succeeded, the page shows the report in stage [report], and the
    message "Failed to generate report. Please try again." of the first
    attempt is still set and still rendered. *)
Theorem successful_generation_keeps_stale_error :
  let events :=
    [ ClickFeature InvoiceGen;
      ClickGenerate;
      Settle 0 (Responded (mkResponse 500 None));
      ClickGenerate;
      Settle 0 (Responded (mkResponse 200 (Some (JString "Report text")))) ] in
  exists p,
    session events start = Some p
    /\ stage (component p) = StageReport
    /\ report (component p) = JString "Report text"
    /\ error (component p)
       = Some "Failed to generate report. Please try again."
    /\ error (component p) <> Some ""
    /\ banner (component p)
       = Some "Failed to generate report. Please try again.".
Proof.
  eexists. split; [reflexivity |]. cbn. repeat split. discriminate.
Qed.

(** ** Requests in flight *)

(** The "Generate Insights" button of lines 139-149 is outside the
    [stage === 'input'] block: it is offered in every stage as soon as
    something is selected, on any page that renders. *)
Lemma generate_offered_in_every_stage (p : Page) :
  renders (component p) = true ->
  selectedFeatures (component p) <> [] -> offered p ClickGenerate = true.
Proof.
  intros Hr H. unfold offered. rewrite Hr. cbn.
  destruct (selectedFeatures (component p)); [congruence | reflexivity].
Qed.

Lemma generate_adds_pending (p : Page) :
  selectedFeatures (component p) <> [] ->
  length (pending (generate p)) = S (length (pending p))
  /\ selectedFeatures (component (generate p)) = selectedFeatures (component p).
Proof.
  intros H. rewrite generate_nonempty by assumption. cbn.
  rewrite length_app. cbn. split; [lia | reflexivity].
Qed.

(** C3 at its failing input.  [InvoiceGen] is selected and "Generate
    Insights" is clicked: the page is in stage [loading] with one request
    pending.  The button is still offered there; a second click issues a
    second request while the first one is pending. *)
Theorem second_request_while_loading :
  exists p1 p2,
    session [ClickFeature InvoiceGen; ClickGenerate] start = Some p1
    /\ stage (component p1) = StageLoading
    /\ length (pending p1) = 1
    /\ offered p1 ClickGenerate = true
    /\ session [ClickFeature InvoiceGen; ClickGenerate; ClickGenerate] start
       = Some p2
    /\ stage (component p2) = StageLoading
    /\ length (pending p2) = 2
    /\ sent p2 = 2.
Proof.
  do 2 eexists. split; [reflexivity |]. cbn. repeat split.
Qed.

(** ** The invariant on whole sessions *)

Lemma resume_keeps_selection (o : FetchOutcome) (c : Component) :
  selectedFeatures (run_handler (handleGenerateReport_resume o) c)
  = selectedFeatures c.
Proof.
  destruct (failed o) eqn:Ho.
  - rewrite resume_failed by assumption. reflexivity.
  - destruct o as [| r]; [discriminate |]. cbn in Ho.
    apply orb_false_elim in Ho. destruct Ho as [Hok Hbody].
    apply negb_false_iff in Hok.
    destruct (json_body r) as [v |] eqn:E; [| discriminate].
    rewrite (resume_succeeded r v) by assumption. reflexivity.
Qed.

Lemma step_keeps_invariant (p : Page) (e : Event) :
  selection_ok (selectedFeatures (component p)) ->
  selection_ok (selectedFeatures (component (step p e))).
Proof.
  intros H. destruct e as [f | sym | | | i o]; cbn [step on_component component].
  - apply select_keeps_invariant. assumption.
  - apply remove_keeps_invariant. assumption.
  - destruct (selectedFeatures (component p)) as [| f sel] eqn:E.
    + rewrite generate_empty by assumption. cbn. rewrite E. assumption.
    + rewrite generate_nonempty by congruence. cbn. rewrite E. assumption.
  - exact H.
  - unfold settle. destruct (nth_error (pending p) i); [| assumption].
    cbn [component]. rewrite resume_keeps_selection. assumption.
Qed.

Lemma session_keeps_invariant (events : list Event) :
  forall p p', session events p = Some p' ->
  selection_ok (selectedFeatures (component p)) ->
  selection_ok (selectedFeatures (component p')).
Proof.
  induction events as [| e events IH]; cbn; intros p p' Hrun Hinv.
  - injection Hrun as <-. assumption.
  - destruct (offered p e); [| discriminate].
    eapply IH; eauto using step_keeps_invariant.
Qed.

(** ** More on [remove] *)

Lemma filter_absent_symbol (sym : string) (l : list Feature) :
  ~ In sym (map symbol l) ->
  filter (fun f => negb (symbol f =? sym)%string) l = l.
Proof.
  induction l as [| g l IH]; cbn; intros H; [reflexivity |].
  destruct (String.eqb_spec (symbol g) sym) as [E | E]; cbn.
  - exfalso. apply H. left. assumption.
  - rewrite IH; [reflexivity | tauto].
Qed.

Lemma filter_two_symbols (a b : string) (l : list Feature) :
  filter (fun f => negb (symbol f =? a)%string)
         (filter (fun f => negb (symbol f =? b)%string) l)
  = filter (fun f => negb (symbol f =? b)%string)
           (filter (fun f => negb (symbol f =? a)%string) l).
Proof.
  induction l as [| g l IH]; cbn; [reflexivity |].
  destruct (symbol g =? a)%string eqn:Ea, (symbol g =? b)%string eqn:Eb;
    cbn; rewrite ?Ea, ?Eb; cbn; congruence.
Qed.

(** X1.  [remove] of a symbol that is not selected leaves the selection,
    the loading flag, the report and the stage as they are; the message
    is cleared all the same. *)
Theorem remove_absent_keeps_selection (sym : string) (c : Component) :
  ~ In sym (map symbol (selectedFeatures c)) ->
  selectedFeatures (remove sym c) = selectedFeatures c
  /\ error (remove sym c) = Some ""
  /\ same_rest c (remove sym c).
Proof.
  intros H. rewrite remove_eq. cbn. unfold same_rest. cbn.
  rewrite filter_absent_symbol by assumption. repeat split.
Qed.

Lemma remove_absent_keeps_selection_witness :
  selectedFeatures (remove "Dashboard" three_selected)
  = selectedFeatures three_selected.
Proof.
  apply (remove_absent_keeps_selection "Dashboard" three_selected).
  cbn. intuition discriminate.
Defined.

(** X2.  A [select] that succeeds is undone by [remove] of the symbol it
    added: the selection is the one before the [select]. *)
Theorem select_then_remove_restores (f : Feature) (c : Component) :
  select_succeeds f c ->
  selectedFeatures (remove (symbol f) (select f c)) = selectedFeatures c.
Proof.
  intros H. pose proof H as [Hsel _].
  apply select_succeeds_iff in H. destruct H as [_ Hnotin].
  rewrite remove_eq. cbn. rewrite Hsel, filter_app. cbn.
  rewrite String.eqb_refl. cbn.
  rewrite filter_absent_symbol by assumption. apply app_nil_r.
Qed.

Lemma select_then_remove_restores_witness :
  selectedFeatures
    (remove "TrackPayments" (select TrackPayments (select InvoiceGen initial)))
  = [InvoiceGen].
Proof.
  apply (select_then_remove_restores TrackPayments (select InvoiceGen initial)).
  split; reflexivity.
Defined.

(** X3.  [remove] is idempotent, and two [remove]s give the same
    component in either order. *)
Theorem remove_idempotent_and_commutative (a b : string) (c : Component) :
  remove a (remove a c) = remove a c
  /\ remove a (remove b c) = remove b (remove a c).
Proof.
  rewrite !remove_eq. cbn. split.
  - rewrite filter_absent_symbol; [reflexivity |].
    apply (removed_symbol_absent a c).
  - rewrite filter_two_symbols. reflexivity.
Qed.

Lemma remove_present_drops_one (sym : string) (l : list Feature) :
  NoDup (map symbol l) -> In sym (map symbol l) ->
  S (length (filter (fun f => negb (symbol f =? sym)%string) l)) = length l.
Proof.
  induction l as [| g l IH]; cbn; intros Hnd Hin; [contradiction |].
  inversion Hnd as [| x xs Hnotin Hnd']; subst.
  destruct (String.eqb_spec (symbol g) sym) as [E | E]; cbn.
  - subst sym. rewrite filter_absent_symbol by assumption. reflexivity.
  - destruct Hin as [Hin | Hin]; [contradiction |].
    rewrite IH by assumption. reflexivity.
Qed.

(** X4.  On a selection without duplicate symbols, [remove] of a selected
    symbol takes out exactly one entry, and the entries left are those
    with another symbol. *)
Theorem remove_present_takes_one (sym : string) (c : Component) :
  NoDup (map symbol (selectedFeatures c)) ->
  In sym (map symbol (selectedFeatures c)) ->
  S (length (selectedFeatures (remove sym c))) = length (selectedFeatures c)
  /\ (forall g, In g (selectedFeatures (remove sym c)) <->
                In g (selectedFeatures c) /\ symbol g <> sym).
Proof.
  intros Hnd Hin. rewrite remove_eq. cbn. split.
  - apply remove_present_drops_one; assumption.
  - intros g. rewrite filter_In, negb_true_iff, String.eqb_neq. tauto.
Qed.

Lemma remove_present_takes_one_witness :
  S (length (selectedFeatures (remove "TrackPayments" three_selected))) = 3.
Proof.
  apply (remove_present_takes_one "TrackPayments" three_selected).
  - repeat constructor; cbn; intuition discriminate.
  - cbn. auto.
Defined.

(** ** Tiles *)

Lemma feature_eqb_eq (f g : Feature) : feature_eqb f g = true -> f = g.
Proof.
  destruct f as [s1 n1], g as [s2 n2]. unfold feature_eqb. cbn.
  rewrite andb_true_iff, !String.eqb_eq. intros [-> ->]. reflexivity.
Qed.

Lemma offered_enabled (p : Page) (e : Event) :
  offered p e = true ->
  renders (component p) = true /\ control_enabled p e = true.
Proof. unfold offered. apply andb_true_iff. Qed.

Lemma offered_tile (p : Page) (f : Feature) :
  offered p (ClickFeature f) = true ->
  stage (component p) = StageInput
  /\ In f FEATURES
  /\ some_symbol (symbol f) (selectedFeatures (component p)) = false.
Proof.
  unfold offered, control_enabled. rewrite !andb_true_iff, negb_true_iff.
  intros [_ [[Hst Hcat] Hsome]]. repeat split.
  - destruct (stage (component p)); cbn in Hst; congruence.
  - apply existsb_exists in Hcat. destruct Hcat as [g [Hin Heq]].
    apply feature_eqb_eq in Heq. subst g. assumption.
  - assumption.
Qed.

(** X5.  A click on a tile the page offers goes one of two ways.  Below 3
    entries the feature is appended, the message cleared, and the tile is
    not offered any more.  At 3 entries the selection stays, the message
    is "Maximum 3 features allowed", and the tile is still offered.  The
    message "Feature already selected" is never the result. *)
Theorem tile_click (p : Page) (f : Feature) :
  offered p (ClickFeature f) = true ->
  let p' := step p (ClickFeature f) in
  error (component p') <> Some "Feature already selected"
  /\ (length (selectedFeatures (component p)) < 3 ->
      selectedFeatures (component p') = selectedFeatures (component p) ++ [f]
      /\ error (component p') = Some ""
      /\ offered p' (ClickFeature f) = false)
  /\ (3 <= length (selectedFeatures (component p)) ->
      selectedFeatures (component p') = selectedFeatures (component p)
      /\ error (component p') = Some "Maximum 3 features allowed"
      /\ offered p' (ClickFeature f) = true).
Proof.
  intros Hoff p'. subst p'.
  pose proof Hoff as Hoff'.
  apply offered_tile in Hoff'. destruct Hoff' as [Hst [Hcat Hsome]].
  unfold offered, renders, control_enabled in *.
  cbn [step on_component component] in *.
  destruct (le_lt_dec 3 (length (selectedFeatures (component p)))) as [H | H].
  - rewrite select_full by assumption.
    unfold run_handler, setError.
    cbn [snd stage selectedFeatures error report].
    split; [discriminate |]. split; [lia |]. intros _.
    repeat split. exact Hoff.
  - rewrite select_fresh by assumption.
    cbn [stage selectedFeatures error report].
    split; [discriminate |]. split; [| lia]. intros _.
    repeat split.
    unfold some_symbol. rewrite existsb_app. cbn [existsb].
    rewrite String.eqb_refl, orb_true_r, !andb_false_r. reflexivity.
Qed.

Lemma tile_click_witness :
  selectedFeatures (component (step start (ClickFeature InvoiceGen)))
  = [InvoiceGen]
  /\ offered (step start (ClickFeature InvoiceGen)) (ClickFeature InvoiceGen)
     = false.
Proof.
  destruct (tile_click start InvoiceGen) as [_ [H _]]; [reflexivity |].
  destruct H as [H1 [_ H3]]; [cbn; lia |].
  split; [exact H1 | exact H3].
Defined.

(** ** What every session keeps *)

Lemma resume_cases (o : FetchOutcome) (c : Component) :
  (failed o = true
   /\ run_handler (handleGenerateReport_resume o) c =
      {| selectedFeatures := selectedFeatures c;
         error := Some "Failed to generate report. Please try again.";
         isLoading := false; report := report c; stage := StageInput |})
  \/ (exists r v, o = Responded r /\ ok r = true /\ json_body r = Some v
      /\ failed o = false
      /\ run_handler (handleGenerateReport_resume o) c =
         {| selectedFeatures := selectedFeatures c; error := error c;
            isLoading := false; report := v; stage := StageReport |}).
Proof.
  destruct (failed o) eqn:Ho.
  - left. split; [reflexivity | apply resume_failed; assumption].
  - right. destruct o as [| r]; [discriminate |]. cbn in Ho.
    apply orb_false_elim in Ho. destruct Ho as [Hok Hbody].
    apply negb_false_iff in Hok.
    destruct (json_body r) as [v |] eqn:E; [| discriminate].
    exists r, v. repeat split; auto using resume_succeeded.
Qed.

Lemma Forall_drop_nth {A} (P : A -> Prop) (i : nat) (l : list A) :
  Forall P l -> Forall P (drop_nth i l).
Proof.
  intros H. revert i. induction H as [| a l Ha Hl IH]; intros [| i]; cbn; auto.
Qed.

Lemma Forall_keep {A} (P : A -> Prop) (q : A -> bool) (l : list A) :
  Forall P l -> Forall P (filter q l).
Proof.
  rewrite !Forall_forall. intros H a Ha. apply filter_In in Ha. apply H, Ha.
Qed.

Lemma start_ok : page_ok start.
Proof.
  constructor; cbn.
  - split; cbn; [lia | constructor].
  - constructor.
  - left. reflexivity.
  - split; discriminate.
  - discriminate.
  - constructor.
  - lia.
Qed.

Lemma click_feature_ok (p : Page) (f : Feature) :
  page_ok p -> offered p (ClickFeature f) = true ->
  page_ok (step p (ClickFeature f)).
Proof.
  intros [Hsel Hcat Hmsg Hflag Hspin Hreq Hsent] Hoff.
  apply offered_tile in Hoff. destruct Hoff as [_ [Hin Hsome]].
  pose proof (select_keeps_invariant f _ Hsel) as Hsel'.
  cbn [step]. unfold on_component.
  destruct (le_lt_dec 3 (length (selectedFeatures (component p)))) as [H | H].
  - rewrite select_full in * by assumption.
    constructor; cells; auto. right. right. left. reflexivity.
  - rewrite select_fresh in * by assumption.
    constructor; cells; auto.
    + apply Forall_app. split; [assumption | constructor; auto].
    + right. left. reflexivity.
Qed.

Lemma click_remove_ok (p : Page) (sym : string) :
  page_ok p -> page_ok (step p (ClickRemove sym)).
Proof.
  intros [Hsel Hcat Hmsg Hflag Hspin Hreq Hsent].
  pose proof (remove_keeps_invariant sym _ Hsel) as Hsel'.
  cbn [step]. unfold on_component. rewrite remove_eq in *.
  constructor; cells; auto.
  - apply Forall_keep. assumption.
  - right. left. reflexivity.
Qed.

Lemma click_generate_ok (p : Page) :
  page_ok p -> offered p ClickGenerate = true ->
  page_ok (step p ClickGenerate).
Proof.
  intros [Hsel Hcat Hmsg Hflag Hspin Hreq Hsent] Hoff.
  apply offered_enabled in Hoff. destruct Hoff as [_ Hoff].
  assert (Hne : selectedFeatures (component p) <> []).
  { cbn in Hoff. destruct (selectedFeatures (component p));
      [discriminate | congruence]. }
  cbn [step]. rewrite generate_nonempty by assumption.
  constructor; cells; auto.
  - tauto.
  - intros _ Habs. apply app_eq_nil in Habs. destruct Habs. discriminate.
  - apply Forall_app. split; [assumption |].
    constructor; [| constructor].
    exists (selectedFeatures (component p)). auto.
  - rewrite length_app. cbn. lia.
Qed.

Lemma click_try_another_ok (p : Page) :
  page_ok p -> offered p ClickTryAnother = true ->
  page_ok (step p ClickTryAnother).
Proof.
  intros [Hsel Hcat Hmsg Hflag Hspin Hreq Hsent] Hoff.
  apply offered_enabled in Hoff. destruct Hoff as [_ Hoff].
  assert (Hst : stage (component p) = StageReport).
  { cbn in Hoff. destruct (stage (component p)); cbn in Hoff; congruence. }
  cbn [step]. unfold on_component. unfold run_handler, handleTryAnother, setStage.
  constructor; cells; auto.
  - rewrite Hst in Hflag. split; [| discriminate].
    intros H. apply Hflag in H. discriminate.
  - discriminate.
Qed.

Lemma settle_ok (p : Page) (i : nat) (o : FetchOutcome) :
  page_ok p -> offered p (Settle i o) = true ->
  page_ok (step p (Settle i o)).
Proof.
  intros [Hsel Hcat Hmsg Hflag Hspin Hreq Hsent] Hoff.
  apply offered_enabled in Hoff. destruct Hoff as [_ Hoff].
  cbn in Hoff. apply Nat.ltb_lt in Hoff.
  pose proof (drop_nth_length i (pending p) Hoff) as Hlen.
  cbn [step]. unfold settle.
  destruct (nth_error (pending p) i) eqn:E;
    [| apply nth_error_None in E; lia].
  destruct (resume_cases o (component p))
    as [[_ Hc] | [resp [v [_ [_ [_ [_ Hc]]]]]]]; rewrite Hc.
  - constructor; cells; auto using Forall_drop_nth; try lia.
    + right. right. right. reflexivity.
    + split; discriminate.
    + discriminate.
  - constructor; cells; auto using Forall_drop_nth; try lia.
    + split; discriminate.
    + discriminate.
Qed.

Lemma step_ok (p : Page) (e : Event) :
  page_ok p -> offered p e = true -> page_ok (step p e).
Proof.
  destruct e as [f | sym | | | i o];
    auto using click_feature_ok, click_remove_ok, click_generate_ok,
               click_try_another_ok, settle_ok.
Qed.

Lemma session_ok (events : list Event) :
  forall p p', page_ok p -> session events p = Some p' -> page_ok p'.
Proof.
  induction events as [| e events IH]; cbn; intros p p' Hok Hrun.
  - injection Hrun as <-. assumption.
  - destruct (offered p e) eqn:Hoff; [| discriminate].
    apply (IH (step p e) p'); [apply step_ok |]; assumption.
Qed.

(** X6.  On every page a session reaches from the start page, whatever
    mix of tile clicks, removals, generations, settled requests and
    returns from the report it is made of, the selection has at most 3
    entries, no two with the same symbol, and every entry is one of the
    catalog [FEATURES]. *)
Theorem session_selection_from_catalog (events : list Event) (p : Page) :
  session events start = Some p ->
  length (selectedFeatures (component p)) <= 3
  /\ NoDup (map symbol (selectedFeatures (component p)))
  /\ Forall (fun f => In f FEATURES) (selectedFeatures (component p)).
Proof.
  intros H. destruct (session_ok events start p start_ok H) as [[H1 H2] H3].
  auto.
Qed.

Lemma session_selection_from_catalog_witness :
  length (selectedFeatures (component
            (step (step start (ClickFeature InvoiceGen)) ClickGenerate))) <= 3.
Proof.
  apply (session_selection_from_catalog
           [ClickFeature InvoiceGen; ClickGenerate]).
  reflexivity.
Defined.

(** X7.  The controls that would lead to the guards of lines 29 and 43
    are disabled (lines 97 and 141), so no session ever produces the
    messages "Feature already selected" or "Please select at least one
    feature": the banner is absent or shows one of the other two
    messages. *)
Theorem session_never_shows_guarded_messages (events : list Event) (p : Page) :
  session events start = Some p ->
  error (component p) <> Some "Feature already selected"
  /\ error (component p) <> Some "Please select at least one feature"
  /\ (banner (component p) = None
      \/ banner (component p) = Some "Maximum 3 features allowed"
      \/ banner (component p)
         = Some "Failed to generate report. Please try again.").
Proof.
  intros H. pose proof (ok_message p (session_ok events start p start_ok H)) as M.
  unfold banner. destruct M as [M | [M | [M | M]]]; rewrite M;
    repeat split; try discriminate; auto.
Qed.

Lemma session_never_shows_guarded_messages_witness :
  error (component
           (step (step (step (step start (ClickFeature InvoiceGen))
                             (ClickFeature TrackPayments))
                       (ClickFeature AutoReminders))
                 (ClickFeature Dashboard)))
  <> Some "Feature already selected".
Proof.
  apply (session_never_shows_guarded_messages
           [ClickFeature InvoiceGen; ClickFeature TrackPayments;
            ClickFeature AutoReminders; ClickFeature Dashboard]).
  reflexivity.
Defined.

(** X8.  On every page a session reaches, the loading flag is set
    exactly in stage [loading], and in stage [loading] a request is
    pending: the spinner never shows with nothing left to settle. *)
Theorem session_loading_has_request (events : list Event) (p : Page) :
  session events start = Some p ->
  (isLoading (component p) = true <-> stage (component p) = StageLoading)
  /\ (stage (component p) = StageLoading -> pending p <> []).
Proof.
  intros H. destruct (session_ok events start p start_ok H). auto.
Qed.

Lemma session_loading_has_request_witness :
  pending (step (step start (ClickFeature InvoiceGen)) ClickGenerate) <> [].
Proof.
  destruct (session_loading_has_request
              [ClickFeature InvoiceGen; ClickGenerate] _ eq_refl) as [_ H].
  apply H. reflexivity.
Defined.

(** X9.  Every request a session has pending is a POST to the worker URL
    with a JSON content type whose body is the prompt for a non-empty
    selection of at most 3 catalog features with distinct symbols; and
    no more requests are pending than were sent. *)
Theorem session_requests_well_formed (events : list Event) (p : Page) :
  session events start = Some p ->
  Forall (fun r =>
            url r = "https://gemini-api-worker.waibhav204.workers.dev/"
            /\ method r = "POST"
            /\ content_type r = "application/json"
            /\ exists sel,
                 body r = JString (prompt sel)
                 /\ sel <> []
                 /\ length sel <= 3
                 /\ NoDup (map symbol sel)
                 /\ Forall (fun f => In f FEATURES) sel)
         (pending p)
  /\ length (pending p) <= sent p.
Proof.
  intros H. destruct (session_ok events start p start_ok H)
    as [_ _ _ _ _ Hreq Hsent].
  split; [| assumption].
  eapply Forall_impl; [| exact Hreq].
  intros r [sel [-> [Hne [[Hlen Hnd] Hcat]]]].
  repeat split. exists sel. auto.
Qed.

Lemma session_requests_well_formed_witness :
  length (pending (step (step start (ClickFeature InvoiceGen)) ClickGenerate))
  <= sent (step (step start (ClickFeature InvoiceGen)) ClickGenerate).
Proof.
  apply (session_requests_well_formed
           [ClickFeature InvoiceGen; ClickGenerate]).
  reflexivity.
Defined.

(** ** Settling, whenever it happens *)



(** ** The loading flag is never read *)

(** X11.  Two pages that differ in [isLoading] at most are offered the
    same events, and after any event they again differ in [isLoading] at
    most: the flag written on lines 49 and 74 influences neither a
    handler nor a control. *)
Theorem isLoading_never_read (p q : Page) (e : Event) :
  same_but_isLoading p q ->
  offered p e = offered q e
  /\ same_but_isLoading (step p e) (step q e).
Proof.
  destruct p as [[sel err l1 rep stg] pend n].
  destruct q as [[sel' err' l2 rep' stg'] pend' n'].
  unfold same_but_isLoading. cbn [component pending sent selectedFeatures
                                   error report stage].
  intros [<- [<- [<- [<- [<- <-]]]]].
  split; [reflexivity |].
  destruct e as [f | sym | | | i o]; cbn [step].
  - unfold on_component. cbn [component pending sent].
    destruct (le_lt_dec 3 (length sel)) as [H | H].
    + rewrite !select_full by assumption. cells. repeat split.
    + destruct (some_symbol (symbol f) sel) eqn:E.
      * rewrite !select_present by assumption. cells. repeat split.
      * rewrite !select_fresh by assumption. cells. repeat split.
  - unfold on_component. rewrite !remove_eq. cells. repeat split.
  - destruct sel as [| g sel].
    + rewrite !generate_empty by reflexivity. unfold on_component. cells.
      repeat split.
    + rewrite !generate_nonempty by (cbn; discriminate). cells. repeat split.
  - unfold on_component, handleTryAnother, setStage. cells. repeat split.
  - unfold settle. cbn [pending component sent].
    destruct (nth_error pend i); [| cells; repeat split].
    destruct (resume_cases o
                {| selectedFeatures := sel; error := err; isLoading := l1;
                   report := rep; stage := stg |})
      as [[Ho Hc] | [resp [v [Hr [Hok [Hbody [_ Hc]]]]]]].
    + rewrite Hc, (resume_failed o) by assumption. cells. repeat split.
    + rewrite Hc. subst o.
      rewrite (resume_succeeded resp v) by assumption. cells. repeat split.
Qed.

Lemma isLoading_never_read_witness :
  offered (on_component (run_handler (setIsLoading true)) one_selected)
          ClickGenerate
  = offered one_selected ClickGenerate.
Proof.
  apply (isLoading_never_read
           (on_component (run_handler (setIsLoading true)) one_selected)
           one_selected ClickGenerate).
  repeat split.
Defined.

(** ** The prompt *)

Lemma append_assoc (a b c : string) :
  ((a ++ b) ++ c = a ++ (b ++ c))%string.
Proof. induction a as [| ch a IH]; cbn; congruence. Qed.

Lemma append_nil_r (a : string) : (a ++ "")%string = a.
Proof. induction a as [| ch a IH]; cbn; congruence. Qed.

Lemma featuresList_items (sel : list Feature) :
  featuresList sel = String.concat ", " (map feature_item sel).
Proof. reflexivity. Qed.

Lemma concat_occurs (sep x : string) (l : list string) :
  In x l -> occurs_in x (String.concat sep l).
Proof.
  induction l as [| y l IH]; intros Hin; [contradiction |].
  destruct Hin as [-> | Hin].
  - destruct l as [| z l].
    + exists EmptyString, EmptyString. cbn.
      rewrite append_nil_r. reflexivity.
    + exists EmptyString, (sep ++ String.concat sep (z :: l))%string.
      reflexivity.
  - destruct (IH Hin) as [before [after E]].
    destruct l as [| z l]; [contradiction |].
    exists (y ++ sep ++ before)%string, after.
    change (String.concat sep (y :: z :: l))
      with (y ++ sep ++ String.concat sep (z :: l))%string.
    rewrite E, !append_assoc. reflexivity.
Qed.

Lemma occurs_in_context (x s before after : string) :
  occurs_in x s -> occurs_in x (before ++ s ++ after)%string.
Proof.
  intros [b [a E]]. subst s.
  exists (before ++ b)%string, (a ++ after)%string.
  rewrite !append_assoc. reflexivity.
Qed.

(** X12.  The prompt names every selected feature: for each entry of the
    selection the text [name (symbol)] occurs in the prompt, which is the
    body of the request. *)
Theorem prompt_names_every_feature (sel : list Feature) (f : Feature) :
  In f sel ->
  occurs_in (name f ++ " (" ++ symbol f ++ ")")%string (prompt sel)
  /\ body (report_request sel) = JString (prompt sel).
Proof.
  intros Hin. split; [| reflexivity].
  unfold prompt. apply (occurs_in_context _ (featuresList sel)).
  rewrite featuresList_items.
  apply (concat_occurs ", " (feature_item f)).
  apply in_map. assumption.
Qed.

Lemma prompt_names_every_feature_witness :
  occurs_in "Track Payment Status (TrackPayments)"
            (prompt [InvoiceGen; TrackPayments]).
Proof.
  apply (prompt_names_every_feature [InvoiceGen; TrackPayments] TrackPayments).
  cbn. auto.
Defined.

(** ** Leaving a stage, sending a request *)

(** X13.  A page that a session reaches and whose render does not throw
    is never stuck: at most one offered event away there is a page in
    stage [input] (nothing to do in [input], the return button in
    [report], the settling of a pending request in [loading]).  A page
    whose render throws is in stage [report] and takes no event at all:
    it is stuck. *)
Theorem session_can_return_to_input (events : list Event) (p : Page) :
  session events start = Some p ->
  (renders (component p) = true ->
   exists more p',
     length more <= 1
     /\ session more p = Some p'
     /\ stage (component p') = StageInput)
  /\ (renders (component p) = false ->
      stage (component p) = StageReport
      /\ forall e, offered p e = false).
Proof.
  intros H. pose proof (session_ok events start p start_ok H) as Hok.
  split.
  - intros Hr. destruct (stage (component p)) eqn:Hst.
    + exists [], p. cbn. auto.
    + pose proof (ok_spinner p Hok Hst) as Hpend.
      exists [Settle 0 NetworkError], (settle 0 NetworkError p).
      cbn [session length]. unfold offered. rewrite Hr.
      destruct (pending p) as [| r rest] eqn:E; [congruence |].
      cbn [control_enabled step andb]. rewrite E. cbn [length Nat.ltb Nat.leb].
      repeat split; auto.
      unfold settle. rewrite E. reflexivity.
    + exists [ClickTryAnother], (step p ClickTryAnother).
      cbn [session length]. unfold offered. rewrite Hr.
      cbn [control_enabled andb]. rewrite Hst. cbn. auto.
  - intros Hr. split.
    + unfold renders in Hr. apply orb_false_elim in Hr. destruct Hr as [Hr _].
      destruct (stage (component p)); cbn in Hr; congruence.
    + intros e. unfold offered. rewrite Hr. reflexivity.
Qed.

(** A page in stage [loading], and the page left by a response whose
    body is a JSON object. *)
Lemma session_can_return_to_input_witness :
  (exists more p',
     length more <= 1
     /\ session more (step (step start (ClickFeature InvoiceGen)) ClickGenerate)
        = Some p'
     /\ stage (component p') = StageInput)
  /\ (forall e,
        offered
          (step (step (step start (ClickFeature InvoiceGen)) ClickGenerate)
                (Settle 0 (Responded
                             (mkResponse 200 (Some (JObject [("text", JString "Report text")]))))))
          e = false).
Proof.
  split.
  - apply (session_can_return_to_input
             [ClickFeature InvoiceGen; ClickGenerate]);
      reflexivity.
  - apply (session_can_return_to_input
             [ClickFeature InvoiceGen; ClickGenerate;
              Settle 0 (Responded
                          (mkResponse 200 (Some (JObject [("text", JString "Report text")]))))]);
      reflexivity.
Defined.

(** X14.  A "generate" on a non-empty selection sends exactly one
    request, the one built from the current selection, and nothing else
    sends any: every other event, a settled request included, and a
    "generate" on the empty selection leave the number of requests sent
    as it is and add no pending request, so nothing is ever retried. *)
Theorem only_generate_sends (p : Page) :
  (selectedFeatures (component p) <> [] ->
   sent (step p ClickGenerate) = S (sent p)
   /\ pending (step p ClickGenerate)
      = pending p ++ [report_request (selectedFeatures (component p))])
  /\ (forall e,
        e <> ClickGenerate \/ selectedFeatures (component p) = [] ->
        sent (step p e) = sent p
        /\ length (pending (step p e)) <= length (pending p)).
Proof.
  split.
  - intros Hne. cbn [step]. rewrite generate_nonempty by assumption.
    cbn. auto.
  - intros e He. destruct e as [f | sym | | | i o]; cbn [step].
    + cbn. auto.
    + cbn. auto.
    + destruct He as [He | He]; [congruence |].
      rewrite generate_empty by assumption. cbn. auto.
    + cbn. auto.
    + split; [apply settle_sends_nothing |].
      unfold settle. destruct (nth_error (pending p) i) eqn:E; [| auto].
      cbn [pending].
      assert (Hi : i < length (pending p))
        by (apply nth_error_Some; congruence).
      pose proof (drop_nth_length i (pending p) Hi). lia.
Qed.

Lemma only_generate_sends_witness :
  sent (step one_selected ClickGenerate) = 1
  /\ sent (step (step one_selected ClickGenerate) (Settle 0 NetworkError)) = 1.
Proof.
  split.
  - apply (only_generate_sends one_selected). cbn. discriminate.
  - apply (only_generate_sends (step one_selected ClickGenerate)).
    left. discriminate.
Defined.
